(** * Shallow embedding of the XML/JSON/YAML converter (src/program.py)

    The converter routes every input through Python's generic data model
    (None, bool, int, str, list, dict), which [json.load] and
    [yaml.safe_load] produce directly, and which [convert_xml_to_dict] and
    [convert_dict_to_xml_element] translate from and to
    [xml.etree.ElementTree] elements.

    Modelling choices:
    - Python strings are modelled as Rocq [string]: the character with
      code [n] (0-255) stands for the code point U+0000-U+00FF of the same
      number, so the model covers text in the Latin-1 range, and the
      character predicates ([py_isspace], [lower_char], [repr_body]) follow
      Python's Unicode tables on that whole range.
    - A Python int is a [Z]; a Python float is given by its [repr()]
      (the shortest string that reads back as the same float, such as
      [1e+16], [0.1], [nan] or [-inf]), which is also its [str()].
    - [yaml.safe_load] can also return objects outside the JSON data model;
      the YAML timestamp ([datetime.date]) is kept as [VDate], the typical
      such object.
    - A Python [dict] is an association list kept in insertion order; an
      assignment [d[k] = v] updates in place when [k] is present and appends
      otherwise ([dict_set]).
    - An [ET.Element] is its tag, attribute dict, children and [text]. *)

From Stdlib Require Import String Ascii List ZArith Bool Lia.
Import ListNotations.
Open Scope string_scope.
Set Warnings "-register-all".

(** ** Python values *)

Inductive Value : Type :=
| VNull : Value                        (* None *)
| VBool : bool -> Value                (* True / False *)
| VInt : Z -> Value                    (* int *)
| VFloat : string -> Value             (* float, by its repr() *)
| VStr : string -> Value               (* str *)
| VSeq : list Value -> Value           (* list *)
| VMap : list (string * Value) -> Value (* dict, insertion ordered *)
| VDate : Z -> Z -> Z -> Value.        (* datetime.date(y, m, d) from YAML *)

(** [isinstance(v, dict)], [isinstance(v, list)] *)
Definition is_dict (v : Value) : bool :=
  match v with VMap _ => true | _ => false end.

Definition is_list (v : Value) : bool :=
  match v with VSeq _ => true | _ => false end.

(** ** Python dict operations on association lists *)

(** [d.get(k)] *)
Fixpoint dict_get (k : string) (d : list (string * Value)) : option Value :=
  match d with
  | [] => None
  | (k', v) :: d' => if String.eqb k k' then Some v else dict_get k d'
  end.

(** [d[k] = v]: replaces the value in place if [k] is a key, else appends. *)
Fixpoint dict_set (k : string) (v : Value) (d : list (string * Value))
  : list (string * Value) :=
  match d with
  | [] => [(k, v)]
  | (k', v') :: d' =>
      if String.eqb k k' then (k', v) :: d' else (k', v') :: dict_set k v d'
  end.

(** [d.update(attrib)] for a dict of strings *)
Definition dict_update_str (d : list (string * Value))
  (attrib : list (string * string)) : list (string * Value) :=
  fold_left (fun acc '(k, s) => dict_set k (VStr s) acc) attrib d.

(** ** [str.strip()] *)

(** Characters for which Python's [str.isspace()] holds, in the range
    U+0000-U+00FF: \t \n \v \f \r, \x1c-\x1f, the space, U+0085 (NEL)
    and U+00A0 (no-break space). *)
Definition py_isspace (c : ascii) : bool :=
  let n := nat_of_ascii c in
  (((9 <=? n) && (n <=? 13)) || ((28 <=? n) && (n <=? 32)) ||
   (n =? 133) || (n =? 160))%nat.

Fixpoint lstrip (s : string) : string :=
  match s with
  | EmptyString => EmptyString
  | String c s' => if py_isspace c then lstrip s' else s
  end.

Fixpoint rstrip (s : string) : string :=
  match s with
  | EmptyString => EmptyString
  | String c s' =>
      match rstrip s' with
      | EmptyString => if py_isspace c then EmptyString else String c EmptyString
      | r => String c r
      end
  end.

Definition strip (s : string) : string := rstrip (lstrip s).

(** ** ElementTree elements *)

Inductive Element : Type :=
| mkElement (tag : string) (attrib : list (string * string))
    (children : list Element) (text : option string).

Definition el_tag (e : Element) : string :=
  match e with mkElement t _ _ _ => t end.
Definition el_attrib (e : Element) : list (string * string) :=
  match e with mkElement _ a _ _ => a end.
Definition el_children (e : Element) : list Element :=
  match e with mkElement _ _ c _ => c end.
Definition el_text (e : Element) : option string :=
  match e with mkElement _ _ _ t => t end.

(** ** [convert_xml_to_dict] *)

(** One iteration of [for child in element:], with [child_data] already
    computed:
<<
        if child.tag in result:
            if not isinstance(result[child.tag], list):
                result[child.tag] = [result[child.tag]]
            result[child.tag].append(child_data)
        else:
            result[child.tag] = child_data
>> *)
Definition merge_child (result : list (string * Value)) (tag : string)
  (child_data : Value) : list (string * Value) :=
  match dict_get tag result with
  | Some old =>
      let lst := match old with VSeq l => l | _ => [old] end in
      dict_set tag (VSeq (lst ++ [child_data])) result
  | None => dict_set tag child_data result
  end.

(** [if element.text and element.text.strip():] *)
Definition has_text (t : option string) : option string :=
  match t with
  | Some s => if String.eqb (strip s) "" then None else Some (strip s)
  | None => None
  end.

(** The tail of the function, once [result] holds attributes and
    children. *)
Definition finish_xml_dict (attrib : list (string * string))
  (text : option string) (result : list (string * Value)) : Value :=
  match has_text text with
  | Some text_content =>
      match result, attrib with
      | [], [] => VStr text_content                   (* return text_content *)
      | _, _ =>
          if String.eqb text_content "" then VMap result
          else VMap (dict_set "#text" (VStr text_content) result)
      end
  | None => VMap result
  end.

Fixpoint convert_xml_to_dict (e : Element) : Value :=
  match e with
  | mkElement _ attrib children text =>
      let result0 := dict_update_str [] attrib in
      let fix go (result : list (string * Value)) (cs : list Element) :=
        match cs with
        | [] => result
        | child :: cs' =>
            go (merge_child result (el_tag child) (convert_xml_to_dict child)) cs'
        end in
      finish_xml_dict attrib text (go result0 children)
  end.

Example convert_xml_to_dict_ex1 :
  convert_xml_to_dict
    (mkElement "root" [] [mkElement "id" [] [] (Some "1");
                          mkElement "id" [] [] (Some " 2 ")] None)
  = VMap [("id", VSeq [VStr "1"; VStr "2"])].
Proof. reflexivity. Qed.

(** ** Python [str()] and [repr()] on the modelled values *)

(** The double quote character, and the one-character string of it. *)
Definition dquote : ascii := "034"%char.
Definition dq : string := String dquote EmptyString.

(** Decimal digits of a positive number; [Pos.size_nat p] bounds the number
    of digits and serves as fuel. *)
Fixpoint dec_digits (fuel : nat) (n : Z) (acc : string) : string :=
  match fuel with
  | O => acc
  | S fuel' =>
      let acc' := String (ascii_of_nat (48 + Z.to_nat (n mod 10))) acc in
      if (n <? 10)%Z then acc' else dec_digits fuel' (n / 10)%Z acc'
  end.

(** [str(n)] for a Python int *)
Definition int_str (n : Z) : string :=
  match n with
  | Z0 => "0"
  | Zpos p => dec_digits (Pos.size_nat p) (Zpos p) ""
  | Zneg p => "-" ++ dec_digits (Pos.size_nat p) (Zpos p) ""
  end.

(** ["%0<w>d" % n] for [n >= 0] *)
Definition zero_pad (w : nat) (n : Z) : string :=
  let s := int_str n in
  append (String.concat "" (repeat "0" (w - String.length s))) s.

(** [str(date)] is [date.isoformat()], ["%04d-%02d-%02d"] *)
Definition date_isoformat (y m d : Z) : string :=
  zero_pad 4 y ++ "-" ++ zero_pad 2 m ++ "-" ++ zero_pad 2 d.

Definition hex_digit (n : nat) : ascii :=
  if (n <? 10)%nat then ascii_of_nat (48 + n) else ascii_of_nat (87 + n).

(** The body of [repr(s)] for a str, with quote character [q]: backslash
    and [q] escaped, \t \n \r by name, the other characters that are not
    printable for [str.isprintable()] (below 32, U+007F-U+00A0 and U+00AD)
    as \xNN. *)
Fixpoint repr_body (q : ascii) (s : string) : string :=
  match s with
  | EmptyString => EmptyString
  | String c s' =>
      let n := nat_of_ascii c in
      let esc :=
        if Ascii.eqb c q then String "\" (String c EmptyString)
        else if Ascii.eqb c "\" then "\\"
        else if (n =? 9)%nat then "\t"
        else if (n =? 10)%nat then "\n"
        else if (n =? 13)%nat then "\r"
        else if ((n <? 32) || ((127 <=? n) && (n <=? 160)) || (n =? 173))%nat then
          String "\" (String "x" (String (hex_digit (n / 16))
                                    (String (hex_digit (n mod 16)) EmptyString)))
        else String c EmptyString in
      esc ++ repr_body q s'
  end.

Fixpoint string_has (c : ascii) (s : string) : bool :=
  match s with
  | EmptyString => false
  | String c' s' => Ascii.eqb c c' || string_has c s'
  end.

(** [repr(s)]: single quotes unless [s] holds a single quote and no double
    quote. *)
Definition str_repr (s : string) : string :=
  let q := if string_has "'" s && negb (string_has dquote s) then dquote
           else "'"%char in
  String q (repr_body q s ++ String q EmptyString).

Fixpoint py_repr (v : Value) : string :=
  match v with
  | VNull => "None"
  | VBool true => "True"
  | VBool false => "False"
  | VInt n => int_str n
  | VFloat r => r
  | VStr s => str_repr s
  | VSeq l =>
      let fix items (xs : list Value) : list string :=
        match xs with [] => [] | x :: xs' => py_repr x :: items xs' end in
      "[" ++ String.concat ", " (items l) ++ "]"
  | VMap m =>
      let fix entries (kvs : list (string * Value)) : list string :=
        match kvs with
        | [] => []
        | (k, x) :: kvs' => (str_repr k ++ ": " ++ py_repr x) :: entries kvs'
        end in
      "{" ++ String.concat ", " (entries m) ++ "}"
  | VDate y m d =>
      "datetime.date(" ++ int_str y ++ ", " ++ int_str m ++ ", " ++ int_str d ++ ")"
  end.

(** [str(v)] *)
Definition py_str (v : Value) : string :=
  match v with
  | VStr s => s
  | VDate y m d => date_isoformat y m d
  | _ => py_repr v
  end.

Example py_str_ex :
  py_str (VSeq [VInt (-12); VStr "a"; VBool true; VNull; VDate 2020 1 5])
  = "[-12, 'a', True, None, datetime.date(2020, 1, 5)]"
  /\ py_str (VDate 2020 1 5) = "2020-01-05".
Proof. split; reflexivity. Qed.

(** ** [convert_dict_to_xml_element] *)

(** [tag.endswith('s')] *)
Definition ends_with_s (tag : string) : bool :=
  match String.get (String.length tag - 1) tag with
  | Some c => (0 <? String.length tag)%nat && Ascii.eqb c "s"
  | None => false
  end.

(** [tag[:-1] if tag.endswith('s') and len(tag) > 1 else "item"] *)
Definition item_tag (tag : string) : string :=
  if ends_with_s tag && (1 <? String.length tag)%nat
  then String.substring 0 (String.length tag - 1) tag
  else "item".

Fixpoint convert_dict_to_xml_element (tag : string) (d : Value) {struct d}
  : Element :=
  match d with
  | VMap m =>
      (* for key, val in d.items(): ... *)
      let fix entries (kvs : list (string * Value)) : list Element :=
        match kvs with
        | [] => []
        | (key, val) :: kvs' =>
            (if is_dict val || is_list val
             then convert_dict_to_xml_element key val
             else mkElement key [] [] (Some (py_str val))) :: entries kvs'
        end in
      mkElement tag [] (entries m) None
  | VSeq l =>
      (* for item in d: ... *)
      let fix items (xs : list Value) : list Element :=
        match xs with
        | [] => []
        | item :: xs' =>
            (match item with
             | VMap im =>
                 let fix sub (kvs : list (string * Value)) : list Element :=
                   match kvs with
                   | [] => []
                   | (k, v) :: kvs' =>
                       (if is_dict v || is_list v
                        then convert_dict_to_xml_element k v
                        else mkElement k [] [] (Some (py_str v))) :: sub kvs'
                   end in
                 mkElement (item_tag tag) [] (sub im) None
             | _ => mkElement (item_tag tag) [] [] (Some (py_str item))
             end) :: items xs'
        end in
      mkElement tag [] (items l) None
  | _ => mkElement tag [] [] (Some (py_str d))
  end.

Example convert_dict_to_xml_element_ex :
  convert_dict_to_xml_element "users"
    (VSeq [VMap [("name", VStr "Al")]; VInt 3])
  = mkElement "users" []
      [mkElement "user" [] [mkElement "name" [] [] (Some "Al")] None;
       mkElement "user" [] [] (Some "3")] None.
Proof. reflexivity. Qed.

(** ** Writing output files *)

(** The object handed to the [write_data_to_*] functions: a Python value,
    or an [ET.Element]. *)
Inductive Data : Type :=
| DVal (v : Value)
| DElem (e : Element).

(** The content of the output file: [None] when it does not exist. *)
Definition FileState := option string.

(** Python exceptions raised on the way to the XML root element. *)
Inductive XmlRootError : Type :=
| XmlTypeError            (* raise TypeError(...) *)
| XmlUnboundLocalError.   (* ET.tostring(root, ...) with [root] unassigned *)

(** The part of [write_data_to_xml] that decides [root]:
<<
        if isinstance(data, ET.Element):
            root = data
        elif isinstance(data, (dict, list)):
            if isinstance(data, dict):
                root = convert_dict_to_xml_element("root", data)
            elif isinstance(data, list):
                root = ET.Element("root")
                for item in data:
                    item_elem = convert_dict_to_xml_element("item", item)
                    root.append(item_elem)
            else:
                raise TypeError(...)
        rough_string = ET.tostring(root, 'utf-8')
>> *)
Definition xml_root (data : Data) : XmlRootError + Element :=
  match data with
  | DElem e => inr e
  | DVal v =>
      if is_dict v || is_list v then
        match v with
        | VMap _ => inr (convert_dict_to_xml_element "root" v)
        | VSeq l => inr (mkElement "root" [] (map (convert_dict_to_xml_element "item") l) None)
        | _ => inl XmlTypeError
        end
      else inl XmlUnboundLocalError
  end.

Section WriteXml.
(** [ET.tostring] followed by [minidom.parseString(...).toprettyxml]:
    library code, the pretty printed document or [None] when it raises. *)
Variable serialize : Element -> option string.

(** [write_data_to_xml(data, output_path)], returning its boolean and the
    output file afterwards: the file is opened only after the document
    has been built in memory. *)
Definition write_data_to_xml (data : Data) (fs : FileState) : bool * FileState :=
  match xml_root data with
  | inl _ => (false, fs)
  | inr root =>
      match serialize root with
      | Some pretty_xml_as_string => (true, Some pretty_xml_as_string)
      | None => (false, fs)
      end
  end.
End WriteXml.

(** *** [json.dump(data, f, indent=4, ensure_ascii=False)] *)

(** A Python generator that may raise: the chunks it yields, and whether it
    raised afterwards. *)
Definition Gen := (list string * bool)%type.

Definition yield1 (s : string) : Gen := ([s], false).
Definition gen_done : Gen := ([], false).
Definition gen_raise : Gen := ([], true).

(** [yield from g1; yield from g2] *)
Definition gen_seq (g1 g2 : Gen) : Gen :=
  let (c1, e1) := g1 in
  if e1 then (c1, true) else let (c2, e2) := g2 in ((c1 ++ c2)%list, e2).

(** [json.encoder.py_encode_basestring] (ensure_ascii=False) *)
Fixpoint encode_body (s : string) : string :=
  match s with
  | EmptyString => EmptyString
  | String c s' =>
      let n := nat_of_ascii c in
      let esc :=
        if Ascii.eqb c "\" then "\\"
        else if Ascii.eqb c dquote then String "\" dq
        else if (n =? 8)%nat then "\b"
        else if (n =? 12)%nat then "\f"
        else if (n =? 10)%nat then "\n"
        else if (n =? 13)%nat then "\r"
        else if (n =? 9)%nat then "\t"
        else if (n <? 32)%nat then
          "\u00" ++ String (hex_digit (n / 16)) (String (hex_digit (n mod 16)) EmptyString)
        else String c EmptyString in
      esc ++ encode_body s'
  end.

Definition encode_basestring (s : string) : string :=
  dq ++ encode_body s ++ dq.

(** [_indent * level] with [_indent = '    '] *)
Definition json_indent (lvl : nat) : string := String.concat "" (repeat "    " lvl).

(** [json.encoder]'s [floatstr] (allow_nan=True): NaN and the infinities
    by name, every other float by its [repr()]. *)
Definition float_json (r : string) : string :=
  if String.eqb r "nan" then "NaN"
  else if String.eqb r "inf" then "Infinity"
  else if String.eqb r "-inf" then "-Infinity"
  else r.

(** The chunk of a value that [_iterencode_list] and [_iterencode_dict]
    produce without recursion: str, None, True, False, int, float. *)
Definition json_scalar (v : Value) : option string :=
  match v with
  | VStr s => Some (encode_basestring s)
  | VNull => Some "null"
  | VBool true => Some "true"
  | VBool false => Some "false"
  | VInt n => Some (int_str n)
  | VFloat r => Some (float_json r)
  | _ => None
  end.

(** [_make_iterencode(...)]'s [_iterencode], [_iterencode_list] and
    [_iterencode_dict], with item separator [','] and key separator [': ']. *)
Fixpoint iterencode (o : Value) (lvl : nat) {struct o} : Gen :=
  match o with
  | VSeq [] => yield1 "[]"
  | VSeq l =>
      let newline_indent := String "010" (json_indent (S lvl)) in
      let fix items (first : bool) (xs : list Value) : Gen :=
        match xs with
        | [] => gen_done
        | value :: xs' =>
            let buf := if first then "[" ++ newline_indent else "," ++ newline_indent in
            gen_seq
              (match json_scalar value with
               | Some chunk => yield1 (buf ++ chunk)
               | None => gen_seq (yield1 buf) (iterencode value (S lvl))
               end)
              (items false xs')
        end in
      gen_seq (items true l)
        (gen_seq (yield1 (String "010" (json_indent lvl))) (yield1 "]"))
  | VMap [] => yield1 "{}"
  | VMap m =>
      let newline_indent := String "010" (json_indent (S lvl)) in
      let fix entries (first : bool) (kvs : list (string * Value)) : Gen :=
        match kvs with
        | [] => gen_done
        | (key, value) :: kvs' =>
            gen_seq (if first then gen_done else yield1 ("," ++ newline_indent))
              (gen_seq (yield1 (encode_basestring key))
                 (gen_seq (yield1 ": ")
                    (gen_seq
                       (match json_scalar value with
                        | Some chunk => yield1 chunk
                        | None => iterencode value (S lvl)
                        end)
                       (entries false kvs'))))
        end in
      gen_seq (yield1 "{")
        (gen_seq (yield1 newline_indent)
           (gen_seq (entries true m)
              (gen_seq (yield1 (String "010" (json_indent lvl))) (yield1 "}"))))
  | VDate _ _ _ => gen_raise            (* _default(o): TypeError *)
  | _ =>
      match json_scalar o with
      | Some chunk => yield1 chunk
      | None => gen_raise
      end
  end.

(** [write_data_to_json(data, output_path)]: [open(output_path, 'w')]
    truncates the file, then every chunk of the generator is written to it
    ([for chunk in iterable: fp.write(chunk)]); the [with] block flushes
    and closes the file also when the generator raises. *)
Definition write_data_to_json (data : Value) (fs : FileState) : bool * FileState :=
  let (chunks, raised) := iterencode data 0 in
  (negb raised, Some (String.concat "" chunks)).

Example write_data_to_json_ex :
  write_data_to_json (VMap [("a", VSeq [VInt 1; VStr "x"]); ("b", VMap [])]) None
  = (true, Some ("{" ++ String "010" "    " ++ dq ++ "a" ++ dq ++ ": ["
                 ++ String "010" "        1,"
                 ++ String "010" "        " ++ dq ++ "x" ++ dq
                 ++ String "010" "    ],"
                 ++ String "010" "    " ++ dq ++ "b" ++ dq ++ ": {}"
                 ++ String "010" "}")).
Proof. reflexivity. Qed.

(** *** Conversion pipeline ([ConverterWorker.run], [__main__]) *)

Inductive Format : Type := FJson | FXml | FYaml.

Section Pipeline.
(** [ET.tostring] + [minidom] pretty printing, as in [WriteXml]. *)
Variable serialize : Element -> option string.
(** [yaml.dump(data, f, allow_unicode=True, default_flow_style=False,
    sort_keys=False)]: library code, the chunks its emitter writes to the
    stream and whether it raised. *)
Variable yaml_dump : Value -> Gen.

(** [write_data_to_yaml(data, output_path)]: the file is opened (and
    truncated) before [yaml.dump] streams into it. *)
Definition write_data_to_yaml (data : Value) (fs : FileState) : bool * FileState :=
  let (chunks, raised) := yaml_dump data in
  (negb raised, Some (String.concat "" chunks)).

(** [input_data is None] *)
Definition is_none (d : Data) : bool :=
  match d with DVal VNull => true | _ => false end.

(** From the result of [read_and_validate_data] to [data_for_conversion]:
<<
          if input_data is None: ... return
          if self.input_format == 'xml':
              if isinstance(input_data, ET.Element):
                  data_for_conversion = convert_xml_to_dict(input_data)
                  if data_for_conversion is None: ... return
              else: ... return
          elif self.input_format in ['json', 'yaml']:
              data_for_conversion = input_data
>>
    [None] stands for the early returns (failure reported). *)
Definition prepare_data (input_format : Format) (input_data : Data) : option Data :=
  if is_none input_data then None else
  match input_format with
  | FXml =>
      match input_data with
      | DElem e =>
          let data_for_conversion := DVal (convert_xml_to_dict e) in
          if is_none data_for_conversion then None else Some data_for_conversion
      | DVal _ => None
      end
  | FJson | FYaml => Some input_data
  end.

(** The Python objects that reach [write_data_to_json] and
    [write_data_to_yaml] are values; an [ET.Element] never does. *)
Definition data_value (d : Data) : Value :=
  match d with DVal v => v | DElem _ => VNull end.

(** The whole conversion: the success flag and the output file. *)
Definition run (input_format output_format : Format) (input_data : Data)
  (fs : FileState) : bool * FileState :=
  match prepare_data input_format input_data with
  | None => (false, fs)
  | Some data_for_conversion =>
      match output_format with
      | FJson => write_data_to_json (data_value data_for_conversion) fs
      | FXml => write_data_to_xml serialize data_for_conversion fs
      | FYaml => write_data_to_yaml (data_value data_for_conversion) fs
      end
  end.
End Pipeline.

(** ** Format detection from file names *)

(** [s.rfind(c)]: the last index of [c] in [s]. *)
Fixpoint rfind_from (c : ascii) (s : string) (i : nat) (acc : option nat) : option nat :=
  match s with
  | EmptyString => acc
  | String c' s' => rfind_from c s' (S i) (if Ascii.eqb c' c then Some i else acc)
  end.

Definition rfind (c : ascii) (s : string) : option nat := rfind_from c s 0 None.

(** [os.path.splitext(p)] (posixpath, [genericpath._splitext]):
<<
    sepIndex = p.rfind(sep)
    dotIndex = p.rfind(extsep)
    if dotIndex > sepIndex:
        filenameIndex = sepIndex + 1
        while filenameIndex < dotIndex:
            if p[filenameIndex:filenameIndex+1] != extsep:
                return p[:dotIndex], p[dotIndex:]
            filenameIndex += 1
    return p, p[:0]
>> *)
Definition splitext (p : string) : string * string :=
  match rfind "." p with
  | None => (p, "")
  | Some dot =>
      let (after_sep, start) :=
        match rfind "/" p with
        | None => (true, 0%nat)
        | Some sep => ((sep <? dot)%nat, S sep)
        end in
      if after_sep &&
         existsb (fun i => negb (String.eqb (String.substring i 1 p) "."))
                 (seq start (dot - start))
      then (String.substring 0 dot p, String.substring dot (String.length p - dot) p)
      else (p, "")
  end.

(** [s.lower()] on U+0000-U+00FF: A-Z and U+00C0-U+00DE except U+00D7
    move up by 32, every other character is its own lowercase. *)
Definition lower_char (c : ascii) : ascii :=
  let n := nat_of_ascii c in
  if (((65 <=? n) && (n <=? 90)) || ((192 <=? n) && (n <=? 222) && negb (n =? 215)))%nat
  then ascii_of_nat (n + 32) else c.

Fixpoint py_lower (s : string) : string :=
  match s with
  | EmptyString => EmptyString
  | String c s' => String (lower_char c) (py_lower s')
  end.

(** [ext[1:]] *)
Definition drop_first (s : string) : string :=
  match s with EmptyString => EmptyString | String _ s' => s' end.

(** [allowed_formats = ['xml', 'json', 'yml', 'yaml']] *)
Definition allowed_formats : list string := ["xml"; "json"; "yml"; "yaml"].

(** [parse_arguments], for one (absolute) path: the format it settles on,
    or [None] where it calls [parser.error]:
<<
    _, input_ext = os.path.splitext(input_path)
    input_format = input_ext[1:].lower() if input_ext else None
    if input_format not in allowed_formats: parser.error(...)
    if input_format == 'yml': input_format = 'yaml'
>> *)
Definition path_format (path : string) : option string :=
  let (_, ext) := splitext path in
  let fmt := if String.eqb ext "" then None else Some (py_lower (drop_first ext)) in
  match fmt with
  | Some f =>
      if existsb (String.eqb f) allowed_formats
      then Some (if String.eqb f "yml" then "yaml" else f)
      else None
  | None => None
  end.

(** The items of the two format combo boxes of [DataConverterApp]. *)
Definition combo_items : list string := ["json"; "xml"; "yaml"].

(** [DataConverterApp.update_input_format] / [update_output_format]: the
    combo box's current text after the path field changed to [file_path].
<<
        _, ext = os.path.splitext(file_path)
        ext = ext[1:].lower()
        if ext == 'yml': ext = 'yaml'
        index = self.input_format_combo.findText(ext)
        if index >= 0: self.input_format_combo.setCurrentIndex(index)
>> *)
Definition update_format (current file_path : string) : string :=
  let (_, ext) := splitext file_path in
  let ext := py_lower (drop_first ext) in
  let ext := if String.eqb ext "yml" then "yaml" else ext in
  if existsb (String.eqb ext) combo_items then ext else current.

(** ** Deep predicates on values and elements *)


(** The value is built from str, list and dict only. *)
Fixpoint str_tree (v : Value) : bool :=
  match v with
  | VStr _ => true
  | VSeq l =>
      let fix all (xs : list Value) : bool :=
        match xs with [] => true | x :: xs' => str_tree x && all xs' end in
      all l
  | VMap m =>
      let fix all (kvs : list (string * Value)) : bool :=
        match kvs with [] => true | (_, x) :: kvs' => str_tree x && all kvs' end in
      all m
  | _ => false
  end.

(** No element of the tree has an attribute. *)
Fixpoint no_attrib (e : Element) : bool :=
  match e with
  | mkElement _ attrib children _ =>
      let fix all (cs : list Element) : bool :=
        match cs with [] => true | c :: cs' => no_attrib c && all cs' end in
      match attrib with [] => all children | _ => false end
  end.

(** Values that [convert_xml_to_dict] gives back from their encoding:
    strs equal to their [strip()] and non-empty, and dicts of such values
    with distinct keys. *)
Fixpoint xml_stable (v : Value) : Prop :=
  match v with
  | VStr s => strip s = s /\ s <> ""
  | VMap m =>
      NoDup (map fst m) /\
      (fix all (kvs : list (string * Value)) : Prop :=
         match kvs with [] => True | (_, x) :: kvs' => xml_stable x /\ all kvs' end) m
  | _ => False
  end.

(** The key order of a Python dict after assigning [d[k]]: unchanged when
    [k] is a key, [k] appended otherwise. *)
Definition add_key (ks : list string) (k : string) : list string :=
  if existsb (String.eqb k) ks then ks else ks ++ [k].

(** One dict entry as [convert_dict_to_xml_element] encodes it. *)
Definition entry_element (kv : string * Value) : Element :=
  let (key, val) := kv in
  if is_dict val || is_list val then convert_dict_to_xml_element key val
  else mkElement key [] [] (Some (py_str val)).

(** One list item as [convert_dict_to_xml_element] encodes it. *)
Definition item_element (tag : string) (item : Value) : Element :=
  match item with
  | VMap im => mkElement (item_tag tag) [] (map entry_element im) None
  | _ => mkElement (item_tag tag) [] [] (Some (py_str item))
  end.

(** Every value of the dict is built from str, list and dict only. *)
Definition dict_str_tree (d : list (string * Value)) : Prop :=
  Forall (fun kv => str_tree (snd kv) = true) d.

(** No character of the string is whitespace for [str.isspace()]. *)
Fixpoint all_nonspace (s : string) : bool :=
  match s with
  | EmptyString => true
  | String c s' => negb (py_isspace c) && all_nonspace s'
  end.


(** ** Decoder: unfolding and dict lemmas *)

(** The [for child in element:] loop of [convert_xml_to_dict]. *)
Fixpoint merge_children (result : list (string * Value)) (cs : list Element)
  : list (string * Value) :=
  match cs with
  | [] => result
  | child :: cs' =>
      merge_children (merge_child result (el_tag child) (convert_xml_to_dict child)) cs'
  end.

Lemma convert_xml_to_dict_eq : forall tag attrib children text,
  convert_xml_to_dict (mkElement tag attrib children text)
  = finish_xml_dict attrib text (merge_children (dict_update_str [] attrib) children).
Proof.
  intros tag attrib children text. reflexivity.
Qed.

Lemma dict_get_set : forall k k' v d,
  dict_get k (dict_set k' v d) = if String.eqb k k' then Some v else dict_get k d.
Proof.
  intros k k' v d. induction d as [|[k0 v0] d IH]; simpl.
  - reflexivity.
  - destruct (String.eqb_spec k' k0) as [->|Hne]; simpl.
    + destruct (String.eqb k k0); reflexivity.
    + rewrite IH. destruct (String.eqb_spec k k'), (String.eqb_spec k k0);
        subst; congruence.
Qed.

Lemma dict_set_absent : forall k v d,
  dict_get k d = None -> dict_set k v d = (d ++ [(k, v)])%list.
Proof.
  intros k v d. induction d as [|[k0 v0] d IH]; simpl; intro Hg; [reflexivity|].
  destruct (String.eqb k k0); [discriminate | now rewrite IH].
Qed.

Lemma dict_set_not_nil : forall k v d, dict_set k v d <> [].
Proof. intros k v [|[k0 v0] d]; simpl; [|destruct (String.eqb k k0)]; discriminate. Qed.

(** What [merge_child] does to the entry under one key. *)
Definition item_acc (r : option Value) (child_data : Value) : option Value :=
  match r with
  | None => Some child_data
  | Some (VSeq l) => Some (VSeq (l ++ [child_data]))
  | Some old => Some (VSeq [old; child_data])
  end.

Lemma dict_get_merge_child : forall k result tag child_data,
  dict_get k (merge_child result tag child_data)
  = if String.eqb k tag then item_acc (dict_get k result) child_data
    else dict_get k result.
Proof.
  intros k result tag cd. unfold merge_child.
  destruct (dict_get tag result) as [old|] eqn:Hg; rewrite dict_get_set;
    destruct (String.eqb_spec k tag) as [->|]; try reflexivity; rewrite Hg.
  - destruct old; reflexivity.
  - reflexivity.
Qed.

Lemma merge_child_not_nil : forall result tag cd, merge_child result tag cd <> [].
Proof.
  intros. unfold merge_child. destruct (dict_get tag result); apply dict_set_not_nil.
Qed.

Lemma merge_children_not_nil : forall cs result,
  result <> [] \/ cs <> [] -> merge_children result cs <> [].
Proof.
  induction cs as [|c cs IH]; intros result H; simpl.
  - destruct H; congruence.
  - apply IH. left. apply merge_child_not_nil.
Qed.

Lemma dict_get_merge_children : forall k cs result,
  dict_get k (merge_children result cs)
  = fold_left (fun r c => if String.eqb k (el_tag c)
                          then item_acc r (convert_xml_to_dict c) else r)
      cs (dict_get k result).
Proof.
  intros k. induction cs as [|c cs IH]; intro result; simpl; [reflexivity|].
  rewrite IH, dict_get_merge_child. reflexivity.
Qed.

Lemma fold_left_if_filter : forall (A B : Type) (p : B -> bool) (f : A -> B -> A) l a,
  fold_left (fun r c => if p c then f r c else r) l a = fold_left f (filter p l) a.
Proof.
  intros A B p f. induction l as [|c l IH]; intro a; simpl; [reflexivity|].
  destruct (p c); simpl; apply IH.
Qed.

Lemma dict_get_update_str : forall k attrib d,
  ~ In k (map fst attrib) ->
  dict_get k (dict_update_str d attrib) = dict_get k d.
Proof.
  intros k attrib. unfold dict_update_str.
  induction attrib as [|[k0 s] attrib IH]; intros d Hn; simpl; [reflexivity|].
  simpl in Hn. rewrite IH by tauto. rewrite dict_get_set.
  destruct (String.eqb_spec k k0); [subst; tauto | reflexivity].
Qed.

Lemma dict_update_str_not_nil : forall attrib d,
  attrib <> [] \/ d <> [] -> dict_update_str d attrib <> [].
Proof.
  unfold dict_update_str.
  induction attrib as [|[k0 s] attrib IH]; intros d H; simpl.
  - destruct H; congruence.
  - apply IH. right. apply dict_set_not_nil.
Qed.

Lemma has_text_not_empty : forall t s, has_text t = Some s -> s <> "".
Proof.
  intros [t|] s H; simpl in H; [|discriminate].
  destruct (String.eqb_spec (strip t) "") as [|Hne]; [discriminate|].
  injection H as <-. exact Hne.
Qed.

(** The result of the decoder is a dict or a non-empty str. *)
Lemma convert_xml_to_dict_cases : forall e,
  (exists m, convert_xml_to_dict e = VMap m) \/
  (exists s, convert_xml_to_dict e = VStr s /\ s <> "").
Proof.
  intros [tag attrib children text]. rewrite convert_xml_to_dict_eq.
  unfold finish_xml_dict.
  destruct (has_text text) as [tc|] eqn:Ht; [|left; eauto].
  destruct (merge_children _ _), attrib; try solve [destruct (String.eqb tc ""); left; eauto].
  right. exists tc. split; [reflexivity | eapply has_text_not_empty; eauto].
Qed.

(** Once children have been merged, [finish_xml_dict] yields a dict that
    agrees with the accumulator on every key other than ["#text"]. *)
Lemma finish_xml_dict_not_nil : forall attrib text result,
  result <> [] ->
  exists m, finish_xml_dict attrib text result = VMap m /\
    (forall k, k <> "#text" -> dict_get k m = dict_get k result).
Proof.
  intros attrib text result Hr. unfold finish_xml_dict.
  destruct (has_text text) as [tc|]; [|eauto].
  destruct result as [|p r]; [congruence|].
  destruct (String.eqb tc ""); eexists; split; try reflexivity; intros k Hk; auto.
  rewrite dict_get_set. destruct (String.eqb_spec k "#text"); congruence.
Qed.

Lemma has_text_some : forall s, strip s <> "" -> has_text (Some s) = Some (strip s).
Proof.
  intros s Hs. unfold has_text. destruct (String.eqb_spec (strip s) ""); congruence.
Qed.

Lemma prepare_data_xml : forall e,
  prepare_data FXml (DElem e) = Some (DVal (convert_xml_to_dict e)).
Proof.
  intros e. unfold prepare_data. simpl.
  destruct (convert_xml_to_dict_cases e) as [[m ->]|[s [-> _]]]; reflexivity.
Qed.

(** ** Claims about the decoder [convert_xml_to_dict] *)

(** C1 (counterexample): the accumulator is seeded with the attributes, so
    an attribute named [item] joins the sequence built from the [item]
    children: [<e item="a"><item/><item/></e>] maps [item] to a
    3-element sequence, not a 2-element one. *)
Lemma C1_attribute_named_item_counterexample :
  convert_xml_to_dict
    (mkElement "e" [("item", "a")]
       [mkElement "item" [] [] None; mkElement "item" [] [] None] None)
  = VMap [("item", VSeq [VStr "a"; VMap []; VMap []])].
Proof. reflexivity. Qed.

(** C1 (amended): one step of the child loop inserts the decoded child under
    a tag not yet in the accumulator (appended, so in first-seen order) and
    otherwise promotes the entry to a sequence and appends to it. Hence, for
    an element with no attribute named [item], exactly two children tagged
    [item] give a mapping whose [item] key holds the 2-element sequence of
    their decoded values, and exactly one such child gives a mapping whose
    [item] key holds that child's decoded value unwrapped. *)
Theorem convert_xml_to_dict_repeated_tags : forall tag attrib children text,
  ~ In "item" (map fst attrib) ->
  (forall result t child_data,
     dict_get t (merge_child result t child_data)
       = item_acc (dict_get t result) child_data /\
     (dict_get t result = None ->
      merge_child result t child_data = (result ++ [(t, child_data)])%list)) /\
  (forall c1 c2,
     filter (fun c => String.eqb "item" (el_tag c)) children = [c1; c2] ->
     exists m, convert_xml_to_dict (mkElement tag attrib children text) = VMap m /\
       dict_get "item" m = Some (VSeq [convert_xml_to_dict c1; convert_xml_to_dict c2])) /\
  (forall c1,
     filter (fun c => String.eqb "item" (el_tag c)) children = [c1] ->
     exists m, convert_xml_to_dict (mkElement tag attrib children text) = VMap m /\
       dict_get "item" m = Some (convert_xml_to_dict c1)).
Proof.
  intros tag attrib children text Hattr.
  assert (Hdict : forall c1 rest,
    filter (fun c => String.eqb "item" (el_tag c)) children = c1 :: rest ->
    exists m, convert_xml_to_dict (mkElement tag attrib children text) = VMap m /\
      dict_get "item" m
      = fold_left (fun r c => item_acc r (convert_xml_to_dict c)) (c1 :: rest) None).
  { intros c1 rest Hf.
    assert (Hne : merge_children (dict_update_str [] attrib) children <> []).
    { apply merge_children_not_nil. right. intros ->. discriminate. }
    rewrite convert_xml_to_dict_eq.
    destruct (finish_xml_dict_not_nil attrib text _ Hne) as [m [Hm Hget]].
    exists m. split; [exact Hm|].
    rewrite Hget by discriminate.
    rewrite dict_get_merge_children, fold_left_if_filter, Hf.
    rewrite dict_get_update_str by exact Hattr. reflexivity. }
  split; [|split].
  - intros result t cd. split.
    + rewrite dict_get_merge_child, String.eqb_refl. reflexivity.
    + intros Hg. unfold merge_child. rewrite Hg. apply dict_set_absent, Hg.
  - intros c1 c2 Hf. destruct (Hdict c1 [c2] Hf) as [m [Hm Hg]].
    exists m. split; [exact Hm|]. rewrite Hg. simpl.
    destruct (convert_xml_to_dict_cases c1) as [[m1 ->]|[s1 [-> _]]]; reflexivity.
  - intros c1 Hf. destruct (Hdict c1 [] Hf) as [m [Hm Hg]].
    exists m. split; [exact Hm|]. rewrite Hg. reflexivity.
Qed.

(** C2: an element with no attributes, no children and text that is
    non-empty after [strip()] decodes to the stripped text as a bare str
    (so [<n>42</n>] decodes to ["42"]); an element with attributes or
    children and such text decodes to a dict holding the stripped text
    under ["#text"]. *)
Theorem convert_xml_to_dict_text_leaf : forall tag attrib children s,
  strip s <> "" ->
  (attrib = [] -> children = [] ->
   convert_xml_to_dict (mkElement tag attrib children (Some s)) = VStr (strip s)) /\
  (attrib <> [] \/ children <> [] ->
   exists m, convert_xml_to_dict (mkElement tag attrib children (Some s)) = VMap m /\
     dict_get "#text" m = Some (VStr (strip s))) /\
  convert_xml_to_dict (mkElement tag [] [] (Some "42")) = VStr "42".
Proof.
  intros tag attrib children s Hs.
  pose proof (has_text_some s Hs) as Ht.
  split; [|split].
  - intros -> ->. rewrite convert_xml_to_dict_eq. unfold finish_xml_dict.
    rewrite Ht. reflexivity.
  - intros Hac. rewrite convert_xml_to_dict_eq. unfold finish_xml_dict.
    rewrite Ht.
    assert (Hs' : String.eqb (strip s) "" = false)
      by (destruct (String.eqb_spec (strip s) ""); congruence).
    assert (Hcase : merge_children (dict_update_str [] attrib) children <> [] \/ attrib <> []).
    { destruct Hac as [Ha|Hc]; [now right|left].
      apply merge_children_not_nil. now right. }
    destruct (merge_children _ _) as [|p r], attrib as [|a al];
      try (destruct Hcase; congruence);
      rewrite Hs'; eexists; split; try reflexivity;
      rewrite dict_get_set; reflexivity.
  - reflexivity.
Qed.

(** C8: an element with no attributes, no children and no text, or text
    that is only whitespace for [str.strip()] (NEL and no-break space
    included), decodes to the empty dict, not to None. *)
Theorem convert_xml_to_dict_empty_element : forall tag text,
  (forall s, text = Some s -> strip s = "") ->
  convert_xml_to_dict (mkElement tag [] [] text) = VMap [].
Proof.
  intros tag text H. rewrite convert_xml_to_dict_eq. unfold finish_xml_dict.
  destruct text as [s|]; [|reflexivity].
  simpl. rewrite (H s eq_refl). reflexivity.
Qed.

(** C10: the decoder returns a dict or a non-empty str, never None and never
    a list; so the pipeline's [data_for_conversion is None] check on XML
    input never fails and the decoded value is passed on. *)
Theorem convert_xml_to_dict_never_none : forall e,
  ((exists m, convert_xml_to_dict e = VMap m) \/
   (exists s, convert_xml_to_dict e = VStr s /\ s <> "")) /\
  convert_xml_to_dict e <> VNull /\
  (forall l, convert_xml_to_dict e <> VSeq l) /\
  prepare_data FXml (DElem e) = Some (DVal (convert_xml_to_dict e)).
Proof.
  intros e. split; [apply convert_xml_to_dict_cases|].
  split; [|split; [|apply prepare_data_xml]];
    [|intros l];
    destruct (convert_xml_to_dict_cases e) as [[m ->]|[s [-> _]]]; discriminate.
Qed.

(** ** Encoder: string lemmas for the item tag *)

Lemma length_append_char : forall t c,
  String.length (t ++ String c "") = S (String.length t).
Proof. induction t as [|a t IH]; intro c; simpl; [reflexivity | now rewrite IH]. Qed.

Lemma get_append_char : forall t c,
  String.get (String.length t) (t ++ String c "") = Some c.
Proof. induction t as [|a t IH]; intro c; simpl; [reflexivity | apply IH]. Qed.

Lemma substring_append_char : forall t c,
  String.substring 0 (String.length t) (t ++ String c "") = t.
Proof. induction t as [|a t IH]; intro c; simpl; [reflexivity | now rewrite IH]. Qed.

Lemma item_tag_append_char : forall t c,
  item_tag (t ++ String c "")
  = if Ascii.eqb c "s" && negb (String.eqb t "") then t else "item".
Proof.
  intros t c. unfold item_tag, ends_with_s. rewrite length_append_char.
  replace (S (String.length t) - 1)%nat with (String.length t) by lia.
  rewrite get_append_char, substring_append_char.
  destruct (Ascii.eqb c "s"); simpl; [|reflexivity].
  destruct t as [|a t']; reflexivity.
Qed.

(** ** Claims about the encoder [convert_dict_to_xml_element] *)

(** C3: a list encoded under [tag] gives an element [tag] whose children,
    one per item, are all tagged [item_tag tag]; [item_tag] drops a final
    ["s"] from a tag of length > 1 ending in ["s"] and is ["item"]
    otherwise; ["users"] gives ["user"], ["data"] gives ["item"]. *)
Theorem convert_dict_to_xml_element_item_tag : forall tag l,
  el_tag (convert_dict_to_xml_element tag (VSeq l)) = tag /\
  map el_tag (el_children (convert_dict_to_xml_element tag (VSeq l)))
    = repeat (item_tag tag) (length l) /\
  (forall t c, item_tag (t ++ String c "")
               = if Ascii.eqb c "s" && negb (String.eqb t "") then t else "item") /\
  item_tag "" = "item" /\
  item_tag "users" = "user" /\
  item_tag "data" = "item".
Proof.
  intros tag l. split; [reflexivity|]. split.
  - simpl. induction l as [|item l IH]; [reflexivity|].
    simpl. rewrite <- IH. destruct item; reflexivity.
  - split; [exact item_tag_append_char|]. repeat split.
Qed.

(** C4 (counterexample): a bool is written with Python's [str()], so
    [True] under tag ["flag"] gives the text ["True"], not ["true"]. *)
Lemma C4_bool_text_counterexample :
  el_text (convert_dict_to_xml_element "flag" (VBool true)) = Some "True" /\
  el_text (convert_dict_to_xml_element "flag" (VBool true)) <> Some "true".
Proof. split; [reflexivity | discriminate]. Qed.

(** C4 (amended): a scalar encoded under [tag] is a leaf element [tag]
    whose text is Python's [str()] of the value: ["None"] for None,
    ["True"]/["False"] for bools, the decimal form for ints, the float's
    [repr()] for floats (such as ["1e+16"]), the string itself for strs. *)
Theorem convert_dict_to_xml_element_scalar : forall tag b n r s,
  convert_dict_to_xml_element tag VNull = mkElement tag [] [] (Some "None") /\
  convert_dict_to_xml_element tag (VBool b)
    = mkElement tag [] [] (Some (if b then "True" else "False")) /\
  convert_dict_to_xml_element tag (VInt n) = mkElement tag [] [] (Some (int_str n)) /\
  convert_dict_to_xml_element tag (VFloat r) = mkElement tag [] [] (Some r) /\
  convert_dict_to_xml_element tag (VStr s) = mkElement tag [] [] (Some s) /\
  int_str (-120) = "-120" /\ int_str 2026 = "2026".
Proof.
  intros tag b n r s. repeat split; destruct b; reflexivity.
Qed.

(** ** Claims about the output step and the pipeline *)

(** What [write_data_to_xml] returns once the serializer has run. *)
Definition xml_write_outcome (o : option string) (fs : FileState) : bool * FileState :=
  match o with Some s => (true, Some s) | None => (false, fs) end.

(** C5 (counterexample): the pipeline never hands an XML input's element
    to [write_data_to_xml]; it decodes it first. For [<root x="1"/>] the
    element that reaches the serializer has no attribute (the attribute
    became a child), so XML-to-XML is not a pass-through of the element. *)
Lemma C5_xml_to_xml_not_identity_counterexample :
  ~ (forall serialize yaml_dump e fs,
       run serialize yaml_dump FXml FXml (DElem e) fs
       = write_data_to_xml serialize (DElem e) fs).
Proof.
  intros H.
  specialize (H (fun r => match el_attrib r with [] => Some "a" | _ => Some "b" end)
                (fun _ => gen_done) (mkElement "root" [("x", "1")] [] None) None).
  vm_compute in H. discriminate H.
Qed.

(** C5 (amended): [write_data_to_xml] serializes an element it is handed
    unchanged, without encoding; but the pipeline always decodes XML input
    with [convert_xml_to_dict], so XML-to-XML writes the decoded value
    re-encoded under ["root"] and is not an identity on the element. *)
Theorem write_data_to_xml_element_passthrough : forall serialize yaml_dump e fs,
  xml_root (DElem e) = inr e /\
  write_data_to_xml serialize (DElem e) fs = xml_write_outcome (serialize e) fs /\
  run serialize yaml_dump FXml FXml (DElem e) fs
  = write_data_to_xml serialize (DVal (convert_xml_to_dict e)) fs.
Proof.
  intros serialize yaml_dump e fs. split; [reflexivity|]. split.
  - unfold write_data_to_xml. simpl. destruct (serialize e); reflexivity.
  - unfold run. rewrite prepare_data_xml. reflexivity.
Qed.

(** C6 (counterexample, a defect of the code): a YAML date under a key
    cannot be written as JSON, yet [write_data_to_json] has opened (created
    or truncated) the output file before [json.dump] runs, and [json.dump]
    has already streamed [{], the newline, the indent and the key into it
    when it raises: the function returns [False] and leaves a partial
    file, where [write_data_to_xml] builds the whole document first. *)
Lemma C6_json_partial_write_counterexample :
  write_data_to_json (VMap [("d", VDate 2020 1 1)]) None
  = (false, Some ("{" ++ String "010" "    " ++ dq ++ "d" ++ dq ++ ": ")).
Proof. reflexivity. Qed.

(** The shapes the spec lists for the XML encoder: Mapping, Sequence,
    scalar (None, bool, number, str) or Element. *)
Definition spec_xml_shape (d : Data) : bool :=
  match d with
  | DElem _ => true
  | DVal (VDate _ _ _) => false
  | DVal _ => true
  end.

(** C7 (counterexample): no serializer makes every listed shape succeed:
    a top-level str such as ["42"] (what [<n>42</n>] decodes to) leaves
    [root] unassigned and [write_data_to_xml] returns [False]. *)
Lemma C7_scalar_counterexample :
  ~ (exists serialize, forall d, spec_xml_shape d = true ->
       fst (write_data_to_xml serialize d None) = true).
Proof.
  intros [serialize H]. specialize (H (DVal (VStr "42")) eq_refl).
  discriminate H.
Qed.

(** C7 (amended): [write_data_to_xml] accepts an element, a dict or a
    list: an element is serialized as is, a dict is encoded under
    ["root"], a list becomes a ["root"] element of items encoded under
    ["item"], and the outcome is then the serializer's. Every other value,
    every top-level scalar included, is rejected: the function returns
    [False] and the output file is left untouched. *)
Theorem write_data_to_xml_shapes : forall serialize d fs,
  write_data_to_xml serialize d fs =
    match d with
    | DElem e => xml_write_outcome (serialize e) fs
    | DVal (VMap m) =>
        xml_write_outcome (serialize (convert_dict_to_xml_element "root" (VMap m))) fs
    | DVal (VSeq l) =>
        xml_write_outcome
          (serialize (mkElement "root" [] (map (convert_dict_to_xml_element "item") l) None)) fs
    | DVal _ => (false, fs)
    end.
Proof.
  intros serialize d fs.
  unfold write_data_to_xml, xml_write_outcome.
  destruct d as [v|e]; [destruct v|]; simpl; try reflexivity;
    match goal with |- context [serialize ?r] => destruct (serialize r); reflexivity end.
Qed.

(** ** Witnesses: the theorems with hypotheses at concrete inputs *)

Lemma convert_xml_to_dict_repeated_tags_witness :
  exists m,
    convert_xml_to_dict
      (mkElement "list" [("id", "7")]
         [mkElement "item" [] [] (Some "1"); mkElement "x" [] [] None;
          mkElement "item" [] [] (Some "2")] None) = VMap m /\
    dict_get "item" m
    = Some (VSeq [convert_xml_to_dict (mkElement "item" [] [] (Some "1"));
                  convert_xml_to_dict (mkElement "item" [] [] (Some "2"))]).
Proof.
  refine (proj1 (proj2 (convert_xml_to_dict_repeated_tags "list" [("id", "7")]
    [mkElement "item" [] [] (Some "1"); mkElement "x" [] [] None;
     mkElement "item" [] [] (Some "2")] None _))
    (mkElement "item" [] [] (Some "1")) (mkElement "item" [] [] (Some "2")) _).
  - simpl. intros [H|H]; [discriminate H | exact H].
  - reflexivity.
Defined.

Lemma convert_xml_to_dict_text_leaf_witness :
  convert_xml_to_dict (mkElement "n" [] [] (Some " 42 ")) = VStr (strip " 42 ").
Proof.
  refine (proj1 (convert_xml_to_dict_text_leaf "n" [] [] " 42 " _) eq_refl eq_refl).
  vm_compute. discriminate.
Defined.

Lemma convert_xml_to_dict_empty_element_witness :
  convert_xml_to_dict (mkElement "e" [] [] (Some (String "160" (String "010" " ")))) = VMap [].
Proof.
  apply (convert_xml_to_dict_empty_element "e" (Some (String "160" (String "010" " ")))).
  intros s H. injection H as <-. reflexivity.
Defined.

Example path_format_ex :
  path_format "/data/DATA.YML" = Some "yaml" /\
  path_format "/data/a.tar.json" = Some "json" /\
  path_format "/data/.json" = None /\
  path_format "/data.json/file" = None /\
  path_format "/data/file.txt" = None /\
  update_format "json" "/x/y.yml" = "yaml" /\
  update_format "xml" "/x/y.txt" = "xml".
Proof. repeat split; reflexivity. Qed.

(** ** Further properties of the code *)

Lemma existsb_eqb_In : forall (s : string) l, existsb (String.eqb s) l = true <-> In s l.
Proof.
  intros s l. rewrite existsb_exists. split.
  - intros [x [Hx He]]. apply String.eqb_eq in He. now subst.
  - intros H. exists s. split; [exact H | apply String.eqb_refl].
Qed.



(** Induction through the lists nested in [Value] and [Element]. *)
Section DeepInduction.
Variable P : Value -> Prop.
Hypothesis HNull : P VNull.
Hypothesis HBool : forall b, P (VBool b).
Hypothesis HInt : forall n, P (VInt n).
Hypothesis HFloat : forall r, P (VFloat r).
Hypothesis HStr : forall s, P (VStr s).
Hypothesis HSeq : forall l, Forall P l -> P (VSeq l).
Hypothesis HMap : forall m, Forall (fun kv => P (snd kv)) m -> P (VMap m).
Hypothesis HDate : forall y mo d, P (VDate y mo d).

Fixpoint Value_ind_deep (v : Value) : P v :=
  match v with
  | VNull => HNull
  | VBool b => HBool b
  | VInt n => HInt n
  | VFloat r => HFloat r
  | VStr s => HStr s
  | VSeq l =>
      HSeq l ((fix go (xs : list Value) : Forall P xs :=
                 match xs with
                 | [] => Forall_nil _
                 | x :: xs' => Forall_cons _ (Value_ind_deep x) (go xs')
                 end) l)
  | VMap m =>
      HMap m ((fix go (kvs : list (string * Value)) : Forall (fun kv => P (snd kv)) kvs :=
                 match kvs with
                 | [] => Forall_nil _
                 | (k, x) :: kvs' => Forall_cons (k, x) (Value_ind_deep x) (go kvs')
                 end) m)
  | VDate y mo d => HDate y mo d
  end.
End DeepInduction.

Section DeepInductionElement.
Variable Q : Element -> Prop.
Hypothesis HElem : forall tag attrib children text,
  Forall Q children -> Q (mkElement tag attrib children text).

Fixpoint Element_ind_deep (e : Element) : Q e :=
  match e with
  | mkElement tag attrib children text =>
      HElem tag attrib children text
        ((fix go (cs : list Element) : Forall Q cs :=
            match cs with
            | [] => Forall_nil _
            | c :: cs' => Forall_cons _ (Element_ind_deep c) (go cs')
            end) children)
  end.
End DeepInductionElement.

Lemma convert_dict_to_xml_element_map : forall tag m,
  convert_dict_to_xml_element tag (VMap m) = mkElement tag [] (map entry_element m) None.
Proof.
  intros tag m. induction m as [|[k v] m IH]; [reflexivity|].
  simpl in *. injection IH as IH. now rewrite IH.
Qed.

Lemma convert_dict_to_xml_element_seq : forall tag l,
  convert_dict_to_xml_element tag (VSeq l) = mkElement tag [] (map (item_element tag) l) None.
Proof.
  intros tag l. induction l as [|item l IH]; [reflexivity|].
  simpl in *. injection IH as IH. rewrite IH. f_equal. f_equal.
  destruct item; try reflexivity.
  unfold item_element. rewrite <- (convert_dict_to_xml_element_map (item_tag tag)).
  reflexivity.
Qed.

Lemma convert_dict_to_xml_element_tag : forall tag v,
  el_tag (convert_dict_to_xml_element tag v) = tag.
Proof. intros tag [] ; reflexivity. Qed.

Lemma no_attrib_leaf : forall tag children text,
  no_attrib (mkElement tag [] children text) = forallb no_attrib children.
Proof.
  intros tag children text. induction children as [|c cs IH]; [reflexivity|].
  simpl in *. now rewrite IH.
Qed.

(** [convert_dict_to_xml_element] never puts an attribute on any element
    of the tree it builds: dict keys and list items always become child
    elements. *)
Theorem convert_dict_to_xml_element_no_attrib : forall tag v,
  no_attrib (convert_dict_to_xml_element tag v) = true.
Proof.
  intros tag v. revert tag.
  induction v as [| | | | |l IH|m IH|] using Value_ind_deep; intros tag;
    try reflexivity.
  - rewrite convert_dict_to_xml_element_seq, no_attrib_leaf, forallb_forall.
    intros e He. apply in_map_iff in He as [item [<- Hin]].
    rewrite Forall_forall in IH. specialize (IH item Hin).
    destruct item; try reflexivity.
    unfold item_element. rewrite no_attrib_leaf.
    specialize (IH (item_tag tag)).
    rewrite convert_dict_to_xml_element_map, no_attrib_leaf in IH. exact IH.
  - rewrite convert_dict_to_xml_element_map, no_attrib_leaf, forallb_forall.
    intros e He. apply in_map_iff in He as [[k x] [<- Hin]].
    rewrite Forall_forall in IH. specialize (IH (k, x) Hin). simpl in IH.
    simpl. destruct (is_dict x || is_list x); [apply IH | reflexivity].
Qed.



Lemma fold_item_acc_seq : forall cs l,
  fold_left (fun r c => item_acc r (convert_xml_to_dict c)) cs (Some (VSeq l))
  = Some (VSeq (l ++ map convert_xml_to_dict cs)).
Proof.
  induction cs as [|c cs IH]; intro l; simpl; [now rewrite app_nil_r|].
  rewrite IH, <- app_assoc. reflexivity.
Qed.

(** [dict_get k] after [result.update(attrib)]: the last attribute named
    [k], if any. *)
Lemma dict_get_update_str_last : forall k attrib d,
  dict_get k (dict_update_str d attrib)
  = match rev (filter (fun kv => String.eqb k (fst kv)) attrib) with
    | (_, s) :: _ => Some (VStr s)
    | [] => dict_get k d
    end.
Proof.
  intros k attrib. unfold dict_update_str.
  induction attrib as [|[k0 s0] attrib IH]; intro d; simpl; [reflexivity|].
  rewrite IH, dict_get_set.
  destruct (String.eqb_spec k k0); simpl;
    destruct (rev (filter (fun kv => String.eqb k (fst kv)) attrib)) as [|[]];
    reflexivity.
Qed.

(** The entry under tag [t] of a decoded element, when [t] is not
    ["#text"]: the fold of the children tagged [t] over the attribute. *)
Lemma convert_xml_to_dict_get : forall tag attrib children text t c rest,
  t <> "#text" ->
  filter (fun ch => String.eqb t (el_tag ch)) children = c :: rest ->
  exists m, convert_xml_to_dict (mkElement tag attrib children text) = VMap m /\
    dict_get t m
    = fold_left (fun r ch => item_acc r (convert_xml_to_dict ch)) (c :: rest)
        (dict_get t (dict_update_str [] attrib)).
Proof.
  intros tag attrib children text t c rest Ht Hf.
  assert (Hne : merge_children (dict_update_str [] attrib) children <> []).
  { apply merge_children_not_nil. right. intros ->. discriminate. }
  rewrite convert_xml_to_dict_eq.
  destruct (finish_xml_dict_not_nil attrib text _ Hne) as [m [Hm Hget]].
  exists m. split; [exact Hm|].
  rewrite Hget by exact Ht.
  rewrite dict_get_merge_children, fold_left_if_filter, Hf. reflexivity.
Qed.

(** Two or more children with the same tag [t] (no attribute named [t],
    and [t] not ["#text"]) decode to a list under [t] of all their decoded
    values, in document order. *)
Theorem convert_xml_to_dict_repeated_children : forall tag attrib children text t c1 c2 cs,
  ~ In t (map fst attrib) -> t <> "#text" ->
  filter (fun c => String.eqb t (el_tag c)) children = c1 :: c2 :: cs ->
  exists m, convert_xml_to_dict (mkElement tag attrib children text) = VMap m /\
    dict_get t m = Some (VSeq (map convert_xml_to_dict (c1 :: c2 :: cs))).
Proof.
  intros tag attrib children text t c1 c2 cs Ha Ht Hf.
  destruct (convert_xml_to_dict_get tag attrib children text t c1 (c2 :: cs) Ht Hf)
    as [m [Hm Hg]].
  exists m. split; [exact Hm|]. rewrite Hg, dict_get_update_str by exact Ha.
  simpl.
  destruct (convert_xml_to_dict_cases c1) as [[m1 E]|[s1 [E _]]]; rewrite E; simpl;
    rewrite fold_item_acc_seq; reflexivity.
Qed.

(** An attribute and one or more children sharing the name [t] merge: the
    entry under [t] is a list that starts with the attribute's string and
    continues with the decoded children in document order. *)
Theorem convert_xml_to_dict_attribute_child_clash : forall tag attrib children text t a c cs,
  filter (fun kv => String.eqb t (fst kv)) attrib = [(t, a)] -> t <> "#text" ->
  filter (fun ch => String.eqb t (el_tag ch)) children = c :: cs ->
  exists m, convert_xml_to_dict (mkElement tag attrib children text) = VMap m /\
    dict_get t m = Some (VSeq (VStr a :: map convert_xml_to_dict (c :: cs))).
Proof.
  intros tag attrib children text t a c cs Ha Ht Hf.
  destruct (convert_xml_to_dict_get tag attrib children text t c cs Ht Hf)
    as [m [Hm Hg]].
  exists m. split; [exact Hm|]. rewrite Hg, dict_get_update_str_last, Ha.
  simpl. rewrite fold_item_acc_seq. reflexivity.
Qed.

Lemma keys_dict_set : forall k v d,
  map fst (dict_set k v d) = add_key (map fst d) k.
Proof.
  intros k v d. unfold add_key. induction d as [|[k0 v0] d IH]; [reflexivity|].
  simpl. destruct (String.eqb_spec k k0) as [->|Hne]; simpl.
  - reflexivity.
  - rewrite IH. destruct (existsb (String.eqb k) (map fst d)); reflexivity.
Qed.

Lemma keys_merge_child : forall result tag cd,
  map fst (merge_child result tag cd) = add_key (map fst result) tag.
Proof.
  intros. unfold merge_child. destruct (dict_get tag result); apply keys_dict_set.
Qed.

Lemma keys_merge_children : forall cs result,
  map fst (merge_children result cs) = fold_left add_key (map el_tag cs) (map fst result).
Proof.
  induction cs as [|c cs IH]; intro result; simpl; [reflexivity|].
  now rewrite IH, keys_merge_child.
Qed.

Lemma keys_update_str : forall attrib d,
  map fst (dict_update_str d attrib) = fold_left add_key (map fst attrib) (map fst d).
Proof.
  unfold dict_update_str.
  induction attrib as [|[k s] attrib IH]; intro d; simpl; [reflexivity|].
  now rewrite IH, keys_dict_set.
Qed.

Lemma add_key_NoDup : forall ks k, NoDup ks -> NoDup (add_key ks k).
Proof.
  intros ks k H. unfold add_key.
  destruct (existsb (String.eqb k) ks) eqn:E; [exact H|].
  apply NoDup_app; [exact H | constructor; [intros []|constructor] |].
  intros x Hx [<-|[]]. apply existsb_eqb_In in Hx. congruence.
Qed.

Lemma fold_add_key_NoDup : forall l ks, NoDup ks -> NoDup (fold_left add_key l ks).
Proof.
  induction l as [|k l IH]; intros ks H; simpl; [exact H|].
  apply IH, add_key_NoDup, H.
Qed.

(** When [convert_xml_to_dict] returns a dict, its keys are distinct and in
    first-seen order: the attribute names, then the tags of the children,
    each at its first occurrence, then ["#text"] if the element has
    non-blank text. *)
Theorem convert_xml_to_dict_key_order : forall tag attrib children text m,
  convert_xml_to_dict (mkElement tag attrib children text) = VMap m ->
  NoDup (map fst m) /\
  map fst m =
    (let ks := fold_left add_key (map fst attrib ++ map el_tag children) [] in
     match has_text text with Some _ => add_key ks "#text" | None => ks end).
Proof.
  intros tag attrib children text m H.
  rewrite convert_xml_to_dict_eq in H. unfold finish_xml_dict in H.
  assert (Hk : map fst (merge_children (dict_update_str [] attrib) children)
               = fold_left add_key (map fst attrib ++ map el_tag children) []).
  { rewrite keys_merge_children, keys_update_str, fold_left_app. reflexivity. }
  assert (Hs : forall tc, has_text text = Some tc -> String.eqb tc "" = false).
  { intros tc Ht. apply has_text_not_empty in Ht.
    destruct (String.eqb_spec tc ""); congruence. }
  destruct (has_text text) as [tc|] eqn:Ht.
  - rewrite (Hs tc eq_refl) in H.
    assert (Hm : m = dict_set "#text" (VStr tc)
                       (merge_children (dict_update_str [] attrib) children)).
    { destruct (merge_children _ _) as [|p r], attrib as [|a al];
        first [discriminate H | congruence]. }
    subst m. rewrite keys_dict_set, Hk. split; [|reflexivity].
    apply add_key_NoDup, fold_add_key_NoDup. constructor.
  - injection H as <-. rewrite Hk. split; [|reflexivity].
    apply fold_add_key_NoDup. constructor.
Qed.

Lemma str_tree_map : forall m,
  str_tree (VMap m) = forallb (fun kv => str_tree (snd kv)) m.
Proof.
  induction m as [|[k x] m IH]; [reflexivity|]. simpl in *. now rewrite IH.
Qed.

Lemma str_tree_seq : forall l, str_tree (VSeq l) = forallb str_tree l.
Proof.
  induction l as [|x l IH]; [reflexivity|]. simpl in *. now rewrite IH.
Qed.

Lemma dict_set_str_tree : forall k v d,
  str_tree v = true -> dict_str_tree d -> dict_str_tree (dict_set k v d).
Proof.
  intros k v d Hv Hd. induction Hd as [|[k0 v0] d H0 Hd IH]; simpl.
  - constructor; [exact Hv | constructor].
  - destruct (String.eqb k k0); constructor; auto.
Qed.

Lemma dict_get_str_tree : forall k d v,
  dict_str_tree d -> dict_get k d = Some v -> str_tree v = true.
Proof.
  intros k d v Hd. induction Hd as [|[k0 v0] d H0 Hd IH]; simpl; [discriminate|].
  destruct (String.eqb k k0); [intros H; injection H as <-; exact H0 | exact IH].
Qed.

Lemma merge_child_str_tree : forall result tag cd,
  str_tree cd = true -> dict_str_tree result ->
  dict_str_tree (merge_child result tag cd).
Proof.
  intros result tag cd Hc Hr. unfold merge_child.
  destruct (dict_get tag result) as [old|] eqn:Hg; [|now apply dict_set_str_tree].
  apply dict_set_str_tree; [|exact Hr].
  pose proof (dict_get_str_tree _ _ _ Hr Hg) as Ho.
  assert (Hl : forallb str_tree (match old with VSeq l => l | _ => [old] end) = true).
  { destruct old; try (cbn [forallb]; rewrite Ho; reflexivity).
    rewrite <- str_tree_seq. exact Ho. }
  rewrite str_tree_seq, forallb_app, Hl. cbn [forallb]. rewrite Hc. reflexivity.
Qed.

(** Every value [convert_xml_to_dict] builds, at any depth, is a str, a
    list or a dict: XML input never yields None, bools, numbers or dates. *)
Theorem convert_xml_to_dict_str_tree : forall e,
  str_tree (convert_xml_to_dict e) = true.
Proof.
  intros e. induction e as [tag attrib children text IH] using Element_ind_deep.
  rewrite convert_xml_to_dict_eq.
  assert (Hd : dict_str_tree (merge_children (dict_update_str [] attrib) children)).
  { assert (H0 : dict_str_tree (dict_update_str [] attrib)).
    { unfold dict_update_str.
      assert (Hnil : dict_str_tree []) by constructor. revert Hnil.
      generalize (@nil (string * Value)) as d.
      induction attrib as [|[k s] attrib IHa]; intros d Hd0; simpl; [exact Hd0|].
      apply IHa, dict_set_str_tree; [reflexivity | exact Hd0]. }
    revert H0. generalize (dict_update_str [] attrib) as r.
    induction IH as [|c cs Hc Hcs IHcs]; intros r Hr; simpl; [exact Hr|].
    apply IHcs, merge_child_str_tree; assumption. }
  unfold finish_xml_dict.
  assert (Hm : forall d, dict_str_tree d -> str_tree (VMap d) = true).
  { intros d Hd'. rewrite str_tree_map, forallb_forall.
    intros x Hx. unfold dict_str_tree in Hd'; rewrite Forall_forall in Hd'. now apply Hd'. }
  destruct (has_text text) as [tc|]; [|now apply Hm].
  destruct (merge_children _ _), attrib; try reflexivity;
    destruct (String.eqb tc ""); apply Hm; try apply dict_set_str_tree; auto.
Qed.

(** ** The JSON encoder, the XML round trip, file names and the pipeline *)










Lemma xml_stable_map : forall m,
  xml_stable (VMap m) <-> NoDup (map fst m) /\ Forall (fun kv => xml_stable (snd kv)) m.
Proof.
  intros m. simpl. split; intros [Hn Ha]; split; try exact Hn; clear Hn.
  - induction m as [|[k x] m IH]; constructor; [apply Ha | apply IH, Ha].
  - induction Ha as [|[k x] m Hx _ IH]; [exact I | split; assumption].
Qed.

Lemma dict_get_notin : forall k d, ~ In k (map fst d) -> dict_get k d = None.
Proof.
  intros k d. induction d as [|[k0 v0] d IH]; intro H; [reflexivity|].
  simpl in *. destruct (String.eqb_spec k k0) as [->|]; [tauto|]. apply IH. tauto.
Qed.

Lemma entry_element_not_list : forall k x,
  is_list x = false -> entry_element (k, x) = convert_dict_to_xml_element k x.
Proof. intros k [] H; try reflexivity; discriminate H. Qed.

Lemma merge_children_distinct : forall m acc,
  NoDup (map fst acc ++ map fst m) ->
  Forall (fun kv => convert_xml_to_dict (entry_element kv) = snd kv) m ->
  merge_children acc (map entry_element m) = (acc ++ m)%list.
Proof.
  induction m as [|[k x] m IH]; intros acc Hn Hd; cbn [map merge_children];
    [now rewrite app_nil_r|].
  inversion Hd as [|? ? Hx Hm]; subst. cbn [snd] in Hx.
  assert (Ht : el_tag (entry_element (k, x)) = k).
  { simpl. destruct (is_dict x || is_list x);
      [apply convert_dict_to_xml_element_tag | reflexivity]. }
  rewrite Ht, Hx. unfold merge_child.
  rewrite dict_get_notin.
  - rewrite dict_set_absent by (apply dict_get_notin; apply NoDup_remove_2 in Hn;
      rewrite in_app_iff in *; tauto).
    rewrite IH; [now rewrite <- app_assoc|now rewrite map_app, <- app_assoc|exact Hm].
  - apply NoDup_remove_2 in Hn. rewrite in_app_iff in *. tauto.
Qed.

Lemma strip_stable_leaf : forall tag s,
  strip s = s -> s <> "" -> convert_xml_to_dict (mkElement tag [] [] (Some s)) = VStr s.
Proof.
  intros tag s Hs Hne. rewrite convert_xml_to_dict_eq. unfold finish_xml_dict.
  rewrite has_text_some by congruence. rewrite Hs. reflexivity.
Qed.

(** Decoding inverts encoding on the values the decoder can produce
    without loss. *)
Theorem convert_xml_round_trip : forall tag v,
  xml_stable v -> convert_xml_to_dict (convert_dict_to_xml_element tag v) = v.
Proof.
  intros tag v. revert tag.
  induction v as [| | | |s|l IH|m IH|] using Value_ind_deep; intros tag Hv;
    try contradiction Hv.
  - destruct Hv as [Hs Hne]. apply strip_stable_leaf; assumption.
  - apply xml_stable_map in Hv as [Hn Ha].
    rewrite convert_dict_to_xml_element_map, convert_xml_to_dict_eq. simpl.
    rewrite merge_children_distinct; [reflexivity|exact Hn|].
    rewrite Forall_forall in *. intros [k x] Hin. cbn [snd].
    specialize (Ha (k, x) Hin). specialize (IH (k, x) Hin). simpl in Ha, IH.
    rewrite entry_element_not_list by (destruct x; simpl in Ha; tauto).
    apply IH, Ha.
Qed.

Lemma merge_children_same_tag : forall t cs l,
  Forall (fun c => el_tag c = t) cs ->
  merge_children [(t, VSeq l)] cs = [(t, VSeq (l ++ map convert_xml_to_dict cs))].
Proof.
  intros t cs. induction cs as [|c cs IH]; intros l Hc; simpl.
  - now rewrite app_nil_r.
  - inversion Hc as [|? ? Ht Hcs]; subst.
    unfold merge_child. simpl. rewrite ?String.eqb_refl. simpl. rewrite ?String.eqb_refl.
    rewrite IH by exact Hcs. now rewrite <- app_assoc.
Qed.

Lemma item_element_stable : forall tag x,
  xml_stable x -> item_element tag x = convert_dict_to_xml_element (item_tag tag) x.
Proof.
  intros tag [] Hx; try contradiction Hx; try reflexivity.
  unfold item_element. now rewrite convert_dict_to_xml_element_map.
Qed.

(** A list whose items the decoder gives back is encoded as children
    tagged with the singular tag; decoding yields a dict under that tag: no
    entry for the empty list, the bare item for a one-item list, the list
    itself from two items on. *)
Theorem convert_xml_list_round_trip : forall tag l,
  Forall xml_stable l ->
  convert_xml_to_dict (convert_dict_to_xml_element tag (VSeq l))
  = VMap (match l with
          | [] => []
          | [x] => [(item_tag tag, x)]
          | _ => [(item_tag tag, VSeq l)]
          end).
Proof.
  intros tag l Hl.
  rewrite convert_dict_to_xml_element_seq, convert_xml_to_dict_eq.
  assert (Hmap : map (item_element tag) l
                 = map (convert_dict_to_xml_element (item_tag tag)) l).
  { apply map_ext_in. intros x Hin. apply item_element_stable.
    rewrite Forall_forall in Hl. apply Hl, Hin. }
  rewrite Hmap. cbn [dict_update_str fold_left].
  destruct l as [|x [|y r]]; [reflexivity| |].
  - inversion Hl; subst. simpl. unfold merge_child. simpl.
    rewrite convert_xml_round_trip by assumption. rewrite convert_dict_to_xml_element_tag. reflexivity.
  - inversion Hl as [|? ? Hx Hl']; subst. inversion Hl' as [|? ? Hy Hr]; subst.
    cbn [map merge_children]. unfold merge_child at 2. unfold merge_child at 1.
    cbn [dict_get]. rewrite convert_dict_to_xml_element_tag.
    cbn [dict_set dict_get]. rewrite convert_dict_to_xml_element_tag, String.eqb_refl.
    rewrite !convert_xml_round_trip by assumption.
    assert (Hnx : match x with VSeq l0 => l0 | _ => [x] end = [x])
      by (destruct x; try contradiction Hx; reflexivity).
    rewrite Hnx. cbn [app].
    rewrite merge_children_same_tag.
    + cbn [finish_xml_dict has_text app]. do 4 f_equal.
      rewrite map_map. do 2 f_equal. rewrite <- (map_id r) at 2. apply map_ext_in. intros z Hz.
      apply convert_xml_round_trip. rewrite Forall_forall in Hr. apply Hr, Hz.
    + rewrite Forall_forall. intros c Hc. apply in_map_iff in Hc as [z [<- _]].
      apply convert_dict_to_xml_element_tag.
Qed.

Lemma strip_nonspace : forall s, all_nonspace s = true -> strip s = s.
Proof.
  intros s H. unfold strip.
  assert (Hl : lstrip s = s).
  { destruct s as [|c s]; [reflexivity|]. simpl in *.
    destruct (py_isspace c); [discriminate|reflexivity]. }
  rewrite Hl. clear Hl. induction s as [|c s IH]; [reflexivity|].
  simpl in *. apply andb_prop in H as [Hc Hs]. rewrite (IH Hs).
  destruct s; [|reflexivity]. destruct (py_isspace c); [discriminate|reflexivity].
Qed.

Lemma all_nonspace_app : forall s t,
  all_nonspace (s ++ t) = all_nonspace s && all_nonspace t.
Proof.
  induction s as [|c s IH]; intro t; [reflexivity|]. simpl. rewrite IH.
  apply andb_assoc.
Qed.

Lemma digit_nonspace : forall n : Z,
  py_isspace (ascii_of_nat (48 + Z.to_nat (n mod 10))) = false.
Proof.
  intros n. assert (Hb : (Z.to_nat (n mod 10) < 10)%nat).
  { pose proof (Z.mod_pos_bound n 10 ltac:(lia)). lia. }
  remember (Z.to_nat (n mod 10)) as k. clear Heqk.
  do 10 (destruct k as [|k]; [reflexivity|]). lia.
Qed.

Lemma dec_digits_nonspace : forall fuel n acc,
  all_nonspace acc = true -> all_nonspace (dec_digits fuel n acc) = true.
Proof.
  induction fuel as [|fuel IH]; intros n acc H; [exact H|]. cbn [dec_digits].
  assert (H' : all_nonspace (String (ascii_of_nat (48 + Z.to_nat (n mod 10))) acc) = true)
    by (cbn [all_nonspace]; rewrite digit_nonspace, H; reflexivity).
  destruct (n <? 10)%Z; [exact H' | apply IH, H'].
Qed.

Lemma dec_digits_nonempty : forall fuel n acc,
  acc <> "" -> dec_digits fuel n acc <> "".
Proof.
  induction fuel as [|fuel IH]; intros n acc H; [exact H|]. cbn [dec_digits].
  destruct (n <? 10)%Z; [discriminate | apply IH; discriminate].
Qed.

Lemma dec_digits_S_nonempty : forall fuel n acc, dec_digits (S fuel) n acc <> "".
Proof.
  intros fuel n acc. cbn [dec_digits].
  destruct (n <? 10)%Z; [discriminate | apply dec_digits_nonempty; discriminate].
Qed.

Lemma int_str_nonspace : forall n, all_nonspace (int_str n) = true /\ int_str n <> "".
Proof.
  intros [|p|p]; [split; [reflexivity|discriminate]| |].
  - unfold int_str. split; [apply dec_digits_nonspace; reflexivity|].
    destruct p; cbn [Pos.size_nat]; apply dec_digits_S_nonempty.
  - unfold int_str. split; [|discriminate].
    cbn [append all_nonspace]. apply dec_digits_nonspace. reflexivity.
Qed.

Lemma zero_pad_nonspace : forall w n, all_nonspace (zero_pad w n) = true.
Proof.
  intros w n. unfold zero_pad. rewrite all_nonspace_app.
  rewrite (proj1 (int_str_nonspace n)), andb_true_r.
  generalize (w - String.length (int_str n))%nat. intros k.
  induction k as [|k IH]; [reflexivity|]. simpl in *. destruct k; [reflexivity|exact IH].
Qed.

(** Scalars other than str do not survive an encode/decode: [None],
    booleans, ints and dates come back as the str of their [str()]. *)
Theorem convert_xml_scalar_to_str : forall tag b n y mo d,
  convert_xml_to_dict (convert_dict_to_xml_element tag VNull) = VStr "None" /\
  convert_xml_to_dict (convert_dict_to_xml_element tag (VBool b))
    = VStr (if b then "True" else "False") /\
  convert_xml_to_dict (convert_dict_to_xml_element tag (VInt n)) = VStr (int_str n) /\
  convert_xml_to_dict (convert_dict_to_xml_element tag (VDate y mo d))
    = VStr (date_isoformat y mo d).
Proof.
  intros tag b n y mo d. split; [reflexivity|]. split; [destruct b; reflexivity|].
  split.
  - destruct (int_str_nonspace n) as [Hs Hne].
    apply strip_stable_leaf; [apply strip_nonspace, Hs | exact Hne].
  - apply strip_stable_leaf.
    + apply strip_nonspace. unfold date_isoformat.
      rewrite !all_nonspace_app, !zero_pad_nonspace. reflexivity.
    + unfold date_isoformat. destruct (zero_pad 4 y); discriminate.
Qed.

Lemma str_length_app : forall s t, String.length (s ++ t) = (String.length s + String.length t)%nat.
Proof. induction s as [|c s IH]; intro t; simpl; [reflexivity|now rewrite IH]. Qed.

Lemma str_app_assoc : forall s t u, (s ++ t) ++ u = s ++ (t ++ u).
Proof. induction s as [|c s IH]; intros t u; simpl; [reflexivity|now rewrite IH]. Qed.

Lemma rfind_from_app : forall c s t i acc,
  rfind_from c (s ++ t) i acc
  = rfind_from c t (i + String.length s) (rfind_from c s i acc).
Proof.
  intros c s. induction s as [|c' s IH]; intros t i acc; simpl.
  - now rewrite Nat.add_0_r.
  - rewrite IH. now rewrite Nat.add_succ_r.
Qed.

Lemma rfind_from_absent : forall c t i acc,
  string_has c t = false -> rfind_from c t i acc = acc.
Proof.
  intros c t. induction t as [|c' t IH]; intros i acc H; simpl in *; [reflexivity|].
  apply orb_false_elim in H as [Hc Ht]. rewrite Ascii.eqb_sym, Hc. apply IH, Ht.
Qed.

Lemma rfind_from_bound : forall c s i acc k,
  rfind_from c s i acc = Some k -> acc = Some k \/ (i <= k < i + String.length s)%nat.
Proof.
  intros c s. induction s as [|c' s IH]; intros i acc k H; simpl in *; [now left|].
  apply IH in H as [H|H]; [|right; lia].
  destruct (Ascii.eqb c' c); [right; injection H; lia | now left].
Qed.

Lemma substring_prefix : forall s t,
  String.substring 0 (String.length s) (s ++ t) = s.
Proof. induction s as [|c s IH]; intro t; [destruct t; reflexivity|simpl; now rewrite IH]. Qed.

Lemma substring_shift : forall s t n m,
  String.substring (String.length s + n) m (s ++ t) = String.substring n m t.
Proof. induction s as [|c s IH]; intros t n m; [reflexivity|apply IH]. Qed.

Lemma substring_suffix : forall s t m,
  String.substring (String.length s) m (s ++ t) = String.substring 0 m t.
Proof. intros s t m. rewrite <- (substring_shift s t 0 m). now rewrite Nat.add_0_r. Qed.

Lemma substring_whole : forall t, String.substring 0 (String.length t) t = t.
Proof. induction t as [|c t IH]; [reflexivity|simpl; now rewrite IH]. Qed.

Lemma string_has_app : forall c s t,
  string_has c (s ++ t) = string_has c s || string_has c t.
Proof.
  induction s as [|c' s IH]; intro t; simpl; [reflexivity|]. rewrite IH. apply orb_assoc.
Qed.

Lemma rfind_from_last : forall c s e i acc,
  string_has c e = false ->
  rfind_from c (s ++ String c e) i acc = Some (i + String.length s)%nat.
Proof.
  intros c s e i acc He. rewrite rfind_from_app. simpl.
  rewrite Ascii.eqb_refl. apply rfind_from_absent, He.
Qed.

Lemma splitext_ext : forall p e,
  string_has "." e = false -> string_has "/" e = false ->
  (exists d c r, p = d ++ String c r /\ c <> "."%char /\ c <> "/"%char /\
     string_has "/" r = false) ->
  splitext (p ++ String "." e) = (p, String "." e).
Proof.
  intros p e Hd Hs [d [c [r [Hp [Hcd [Hcs Hr]]]]]].
  unfold splitext, rfind.
  rewrite rfind_from_last by exact Hd. cbn [Nat.add].
  assert (Hsl : rfind_from "/" (p ++ String "." e) 0 None = rfind_from "/" d 0 None).
  { rewrite Hp, str_app_assoc, rfind_from_app.
    apply rfind_from_absent. cbn [string_has append]. rewrite (proj2 (Ascii.eqb_neq _ _) (not_eq_sym Hcs)).
    rewrite string_has_app, Hr. cbn [string_has]. rewrite Hs. reflexivity. }
  rewrite Hsl.
  assert (Hlen : String.length p = (String.length d + S (String.length r))%nat)
    by (rewrite Hp, str_length_app; reflexivity).
  assert (Hmid : String.substring (String.length d) 1 (p ++ String "." e) = String c "").
  { rewrite Hp, str_app_assoc, <- (Nat.add_0_r (String.length d)), substring_shift.
    cbn. destruct (r ++ String "." e); reflexivity. }
  assert (Hcond : forall start, (start <= String.length d)%nat ->
    existsb (fun i => negb (String.eqb (String.substring i 1 (p ++ String "." e)) "."))
      (seq start (String.length p - start)) = true).
  { intros start Hst. apply existsb_exists. exists (String.length d). split.
    - apply in_seq. lia.
    - rewrite Hmid. destruct (String.eqb_spec (String c "") ".") as [E|E]; [|reflexivity].
      injection E as E. contradiction. }
  assert (Hres : (String.substring 0 (String.length p) (p ++ String "." e),
                  String.substring (String.length p)
                    (String.length (p ++ String "." e) - String.length p) (p ++ String "." e))
                 = (p, String "." e)).
  { rewrite substring_prefix, substring_suffix, str_length_app.
    replace (String.length p + String.length (String "." e) - String.length p)%nat
      with (String.length (String "." e)) by lia.
    rewrite substring_whole. reflexivity. }
  destruct (rfind_from "/" d 0 None) as [sep|] eqn:Hsep.
  - apply rfind_from_bound in Hsep as [Hsep|Hsep]; [discriminate|].
    rewrite (proj2 (Nat.ltb_lt sep (String.length p))) by lia.
    rewrite Hcond by lia. exact Hres.
  - rewrite Hcond by lia. exact Hres.
Qed.

(** The format is read off the text after the last dot, case-insensitively,
    with [yml] meaning YAML, whenever the file name has a character other
    than a dot before that dot. *)
Theorem path_format_extension : forall p e,
  string_has "." e = false -> string_has "/" e = false ->
  (exists d c r, p = d ++ String c r /\ c <> "."%char /\ c <> "/"%char /\
     string_has "/" r = false) ->
  path_format (p ++ String "." e)
  = (let f := py_lower e in
     if existsb (String.eqb f) allowed_formats
     then Some (if String.eqb f "yml" then "yaml" else f) else None).
Proof.
  intros p e Hd Hs Hp. unfold path_format. rewrite splitext_ext by assumption.
  reflexivity.
Qed.

(** A file name made of a dot and an extension, such as [.json], has no
    extension for [os.path.splitext]: such a path is refused. *)
Theorem path_format_dotfile : forall d e,
  string_has "." e = false -> string_has "/" e = false ->
  path_format (d ++ String "/" (String "." e)) = None.
Proof.
  intros d e Hd Hs. unfold path_format, splitext, rfind.
  replace (d ++ String "/" (String "." e)) with ((d ++ "/") ++ String "." e)
    by (rewrite str_app_assoc; reflexivity).
  rewrite rfind_from_last by exact Hd.
  rewrite rfind_from_app, rfind_from_absent
    by (cbn [string_has]; rewrite Hs; reflexivity).
  rewrite rfind_from_last by reflexivity.
  rewrite str_length_app. cbn [Nat.add String.length].
  replace (String.length d + 1 - S (String.length d))%nat with 0%nat by lia.
  rewrite (proj2 (Nat.ltb_lt _ _)) by lia. reflexivity.
Qed.


(** XML-to-XML conversion re-encodes the decoded document under [root]
    when it decodes to a dict, and fails with the output file untouched
    when it decodes to a str (a document whose root has only text). *)
Theorem run_xml_to_xml : forall serialize yaml_dump e fs,
  run serialize yaml_dump FXml FXml (DElem e) fs
  = match convert_xml_to_dict e with
    | VMap m => xml_write_outcome (serialize (convert_dict_to_xml_element "root" (VMap m))) fs
    | _ => (false, fs)
    end.
Proof.
  intros serialize yaml_dump e fs. unfold run. rewrite prepare_data_xml.
  cbn [write_data_to_xml].
  destruct (convert_xml_to_dict_cases e) as [[m ->]|[s [-> _]]]; [|reflexivity].
  unfold write_data_to_xml, xml_root. simpl.
  destruct (serialize _); reflexivity.
Qed.





(** ** Witnesses of the theorems above with hypotheses *)

Lemma convert_xml_to_dict_repeated_children_witness :
  exists m,
    convert_xml_to_dict
      (mkElement "r" [] [mkElement "a" [] [] (Some "1"); mkElement "a" [] [] (Some "2")] None)
    = VMap m /\
    dict_get "a" m
    = Some (VSeq (map convert_xml_to_dict
                    [mkElement "a" [] [] (Some "1"); mkElement "a" [] [] (Some "2")])).
Proof.
  apply (convert_xml_to_dict_repeated_children "r" []
           [mkElement "a" [] [] (Some "1"); mkElement "a" [] [] (Some "2")] None "a"
           (mkElement "a" [] [] (Some "1")) (mkElement "a" [] [] (Some "2")) []).
  - simpl. tauto.
  - discriminate.
  - reflexivity.
Defined.

Lemma convert_xml_to_dict_attribute_child_clash_witness :
  exists m,
    convert_xml_to_dict (mkElement "r" [("a", "x")] [mkElement "a" [] [] (Some "1")] None)
    = VMap m /\
    dict_get "a" m
    = Some (VSeq (VStr "x" :: map convert_xml_to_dict [mkElement "a" [] [] (Some "1")])).
Proof.
  apply (convert_xml_to_dict_attribute_child_clash "r" [("a", "x")]
           [mkElement "a" [] [] (Some "1")] None "a" "x" (mkElement "a" [] [] (Some "1")) []).
  - reflexivity.
  - discriminate.
  - reflexivity.
Defined.

Lemma convert_xml_to_dict_key_order_witness :
  NoDup ["k"; "c"; "#text"] /\
  ["k"; "c"; "#text"] =
    (let ks := fold_left add_key (["k"] ++ ["c"]) [] in
     match has_text (Some "t") with Some _ => add_key ks "#text" | None => ks end).
Proof.
  apply (convert_xml_to_dict_key_order "r" [("k", "v")] [mkElement "c" [] [] None] (Some "t")
           [("k", VStr "v"); ("c", VMap []); ("#text", VStr "t")]).
  reflexivity.
Defined.

Lemma convert_xml_round_trip_witness :
  convert_xml_to_dict
    (convert_dict_to_xml_element "root"
       (VMap [("name", VStr "Al"); ("tags", VMap [("x", VStr "1")])]))
  = VMap [("name", VStr "Al"); ("tags", VMap [("x", VStr "1")])].
Proof.
  apply convert_xml_round_trip. simpl.
  repeat split; try reflexivity; try discriminate.
  all: repeat (apply NoDup_cons; [simpl; intuition discriminate|]); apply NoDup_nil.
Defined.

Lemma convert_xml_list_round_trip_witness :
  convert_xml_to_dict (convert_dict_to_xml_element "names" (VSeq [VStr "a"; VStr "b"]))
  = VMap [(item_tag "names", VSeq [VStr "a"; VStr "b"])].
Proof.
  apply (convert_xml_list_round_trip "names" [VStr "a"; VStr "b"]).
  repeat constructor; try reflexivity; try discriminate.
Defined.

Lemma path_format_extension_witness :
  path_format ("/tmp/data" ++ String "." "YML")
  = (let f := py_lower "YML" in
     if existsb (String.eqb f) allowed_formats
     then Some (if String.eqb f "yml" then "yaml" else f) else None).
Proof.
  apply path_format_extension; [reflexivity | reflexivity |].
  exists "/tmp/", "d"%char, "ata".
  split; [reflexivity|]. split; [discriminate|]. split; [discriminate|reflexivity].
Defined.

Lemma path_format_dotfile_witness :
  path_format ("/home" ++ String "/" (String "." "json")) = None.
Proof. apply path_format_dotfile; reflexivity. Defined.

